(** * dvelop-sdk-node: getDmsObject and completeTask

    A shallow embedding of two operations of the SDK,
    [getDmsObject] (package dms) and [completeTask] (package task),
    with the JavaScript values they read, the HTTP calls they issue
    through axios and the errors they throw. *)

From stdpp Require Import base option strings gmap fin_maps.
From Stdlib Require Import ZArith.

Open Scope Z_scope.

(** ** JavaScript values *)

Module Js.

(** The values a response body or a request option of type [any] can
    hold.  Objects are finite maps from property names to values.
    Numbers are the integral ones; the program only compares them. *)
#[local] Unset Elimination Schemes.
Inductive Value : Type :=
| Undefined
| Null
| Bool (b : bool)
| Number (n : Z)
| Str (s : string)
| Array (items : list Value)
| Object (props : gmap string Value).
#[local] Set Elimination Schemes.

(** What evaluating an expression gives: a value, or a thrown one. *)
Inductive Completion (E A : Type) : Type :=
| Returns (a : A)
| Throws (e : E).
Arguments Returns {E A} a.
Arguments Throws {E A} e.

#[global] Instance completion_ret {E} : MRet (Completion E) :=
  fun A a => Returns a.

#[global] Instance completion_bind {E} : MBind (Completion E) :=
  fun A B k c =>
    match c with
    | Returns a => k a
    | Throws e => Throws e
    end.

(** Truthiness of a string: only the empty string is falsy. *)
Definition truthy (s : string) : bool :=
  match s with
  | EmptyString => false
  | String _ _ => true
  end.

End Js.

(** ** The data axios exchanges with the program *)

Module Http.

Inductive Method : Type := GET | POST.

(** [AxiosRequestConfig], with the options this program sets or reads.
    [follows] and [templates] are [None] and [params] is [Js.Undefined]
    when the option is absent from the object. *)
Record RequestConfig : Type := {
  baseURL : string;
  headers : gmap string string;
  follows : option (list string);
  templates : option (gmap string string);
  params : Js.Value
}.

(** [AxiosResponse<any>]. *)
Record Response : Type := {
  data : Js.Value;
  status : Z;
  statusText : string;
  responseHeaders : gmap string string;
  config : RequestConfig
}.

(** One call of [axios.get(url, config)] or [axios.post(url, body, config)]. *)
Record Call : Type := {
  method : Method;
  url : string;
  body : option Js.Value;
  options : RequestConfig
}.

End Http.

(** ** Error objects, property reads and promises *)

Module Runtime.
Import Js Http.

(** A JavaScript error object, as the [catch] clauses of the program
    receive it: [message], the optional [response] an axios error
    carries, the [isAxiosError] mark axios sets on its own errors, and
    the remaining own properties. *)
Record ErrorObject : Type := {
  name : string;
  message : string;
  response : option Response;
  isAxiosErrorMark : bool;
  ownProps : gmap string Js.Value
}.

(** [e.message = m] *)
Definition set_message (e : ErrorObject) (m : string) : ErrorObject :=
  {| name := name e;
     message := m;
     response := response e;
     isAxiosErrorMark := isAxiosErrorMark e;
     ownProps := ownProps e |}.

Definition show_nullish (v : Js.Value) : string :=
  match v with
  | Null => "null"
  | _ => "undefined"
  end.

(** The [TypeError] the engine throws when a property of [undefined] or
    [null] is read. *)
Definition TypeError_read (base : Js.Value) (prop : string) : ErrorObject :=
  {| name := "TypeError";
     message := "Cannot read properties of " +:+ show_nullish base
                +:+ " (reading '" +:+ prop +:+ "')";
     response := None;
     isAxiosErrorMark := false;
     ownProps := ∅ |}.

(** [base.prop] for a property name that no built-in prototype defines
    (every name this program reads from an [any] is one): the own
    property of an object, [undefined] on any other value that has
    properties, a [TypeError] on [undefined] and [null]. *)
Definition read (base : Js.Value) (prop : string)
  : Completion ErrorObject Js.Value :=
  match base with
  | Undefined | Null => Throws (TypeError_read base prop)
  | Object props => Returns (default Undefined (props !! prop))
  | Bool _ | Number _ | Str _ | Array _ => Returns Undefined
  end.

(** An [async] function body: it settles, or awaits the outcome of one
    more axios call and goes on.  [E] is the type of what it rejects
    with. *)
Inductive Async (E A : Type) : Type :=
| Fulfilled (a : A)
| Rejected (e : E)
| Await (c : Call) (k : Completion ErrorObject Response -> Async E A).
Arguments Fulfilled {E A} a.
Arguments Rejected {E A} e.
Arguments Await {E A} c k.

#[global] Instance async_ret {E} : MRet (Async E) :=
  fun A a => Fulfilled a.

Fixpoint async_bind_fix {E A B} (k : A -> Async E B) (p : Async E A)
  : Async E B :=
  match p with
  | Fulfilled a => k a
  | Rejected e => Rejected e
  | Await c q => Await c (fun o => async_bind_fix k (q o))
  end.

#[global] Instance async_bind {E} : MBind (Async E) :=
  fun A B k p => async_bind_fix k p.

(** [try { body } catch (e) { handler e }] *)
Fixpoint try_catch {E E' A} (body : Async E A) (handler : E -> Async E' A)
  : Async E' A :=
  match body with
  | Fulfilled a => Fulfilled a
  | Rejected e => handler e
  | Await c q => Await c (fun o => try_catch (q o) handler)
  end.

(** A synchronous expression inside an [async] body. *)
Definition lift {E A} (c : Completion E A) : Async E A :=
  match c with
  | Returns a => Fulfilled a
  | Throws e => Rejected e
  end.

(** The network answers each call with a response or with a thrown
    error object. *)
Definition Network : Type := Call -> Completion ErrorObject Response.

(** Running a body against a network: the calls issued, in order, and
    how the promise settles. *)
Fixpoint run {E A} (net : Network) (p : Async E A)
  : list Call * Completion E A :=
  match p with
  | Fulfilled a => ([], Returns a)
  | Rejected e => ([], Throws e)
  | Await c k => let '(calls, r) := run net (k (net c)) in (c :: calls, r)
  end.

Definition calls {E A} (net : Network) (p : Async E A) : list Call :=
  fst (run net p).

Definition outcome {E A} (net : Network) (p : Async E A) : Completion E A :=
  snd (run net p).

End Runtime.

(** ** axios *)

Module axios.
Import Js Http Runtime.

(** [axios.get(url, config)] *)
Definition get (url : string) (config : RequestConfig)
  : Async ErrorObject Response :=
  Await {| method := GET; url := url; body := None; options := config |} lift.

(** [axios.post(url, data, config)] *)
Definition post (url : string) (data : Js.Value) (config : RequestConfig)
  : Async ErrorObject Response :=
  Await {| method := POST; url := url; body := Some data; options := config |}
        lift.

(** [axios.isAxiosError(e)]: the mark axios puts on the errors it
    creates. *)
Definition isAxiosError (e : ErrorObject) : bool := isAxiosErrorMark e.

(** A network behind axios: the error a request fails with, when it
    carries the response of the server, is one axios created, and axios
    marks the errors it creates. *)
Definition marks_failures (net : Network) : Prop :=
  ∀ c e r, net c = Throws e → response e = Some r → isAxiosError e = true.

End axios.

(** ** Package dms: getDmsObject *)

Module Dms.
Import Js Http Runtime.

(** Modelled from the spec: the [TenantContext] interface, which the
    file of [getDmsObject] imports from the package index.  It carries
    the base URI and the session credential, under the two field names
    [getDmsObject] reads. *)
Record TenantContext : Type := {
  systemBaseUri : string;
  authSessionId : string
}.

Module GetDmsObjectParams.
Record t : Type := {
  repositoryId : string;
  sourceId : string;
  dmsObjectId : string
}.
End GetDmsObjectParams.

(** The fields are declared [string] and [string[]] but are filled
    from [any] without a check: they hold whatever the response holds. *)
Module DmsObject.
Record t : Type := {
  repositoryId : Js.Value;
  sourceId : Js.Value;
  id : Js.Value;
  categories : Js.Value;
  properties : Js.Value
}.
End DmsObject.

(** Modelled from the spec: the error classes [BadRequestError],
    [UnauthorizedError] and [NotFoundError], which the file of
    [getDmsObject] imports from the package index: one kind of typed
    error each.  A constructor stands for [new C(errorContext, e)] and
    keeps both arguments.  [Rethrown e] is [throw e] of the caught
    object: what [getDmsObject] rejects with is one of the four. *)
Inductive Thrown : Type :=
| BadRequestError (context : string) (e : ErrorObject)
| UnauthorizedError (context : string) (e : ErrorObject)
| NotFoundError (context : string) (e : ErrorObject)
| Rethrown (e : ErrorObject).

Definition transformGetDmsObjectResponse (response : Response)
  : Completion ErrorObject DmsObject.t :=
  repositoryId ← read (params (config response)) "repositoryid";
  sourceId ← read (params (config response)) "sourceid";
  id ← read (data response) "id";
  categories ← read (data response) "sourceCategories";
  properties ← read (data response) "sourceProperties";
  mret {| DmsObject.repositoryId := repositoryId;
          DmsObject.sourceId := sourceId;
          DmsObject.id := id;
          DmsObject.categories := categories;
          DmsObject.properties := properties |}.

Definition errorContext : string := "Failed to get dmsObject".

(** The request of [getDmsObject]: [axios.get("/dms", {...})]. *)
Definition request (context : TenantContext) (params : GetDmsObjectParams.t)
  : Async ErrorObject Response :=
  axios.get "/dms"
    {| baseURL := systemBaseUri context;
       headers := {[ "Authorization" := "Bearer " +:+ authSessionId context;
                     "Accept" := "application/hal+json" ]};
       follows := Some ["repo"; "dmsobjectwithmapping"];
       templates :=
         Some {[ "repositoryid" := GetDmsObjectParams.repositoryId params;
                 "dmsobjectid" := GetDmsObjectParams.dmsObjectId params;
                 "sourceid" := GetDmsObjectParams.sourceId params ]};
       Http.params := Undefined |}.

(** The [switch] of the [catch] clause, entered for axios errors only:
    the typed error of a listed status, [None] when control leaves the
    [if] without a [throw]. *)
Definition typed_error (e : ErrorObject) : option Thrown :=
  if axios.isAxiosError e then
    match status <$> response e with
    | Some 400 => Some (BadRequestError errorContext e)
    | Some 401 => Some (UnauthorizedError errorContext e)
    | Some 404 => Some (NotFoundError errorContext e)
    | _ => None
    end
  else None.

Definition on_catch {T} (e : ErrorObject) : Async Thrown T :=
  match typed_error e with
  | Some t => Rejected t
  | None =>
      Rejected (Rethrown (set_message e (errorContext +:+ ": " +:+ message e)))
  end.

(** The implementation, with the transform given. *)
Definition getDmsObject {T} (context : TenantContext)
    (params : GetDmsObjectParams.t)
    (transform : Response -> Completion ErrorObject T) : Async Thrown T :=
  try_catch
    (response ← request context params;
     lift (transform response))
    on_catch.

(** The call without a transform: the parameter takes its default
    value. *)
Definition getDmsObject_default (context : TenantContext)
    (params : GetDmsObjectParams.t) : Async Thrown DmsObject.t :=
  getDmsObject context params transformGetDmsObjectResponse.

End Dms.

(** ** Package task: completeTask *)

Module Tasks.
Import Js Http Runtime.

(** Modelled from the spec: the [Task] interface, which the file of
    [completeTask] imports; a task is an object exposing an optional
    [location] ([None] when the field is absent or undefined). *)
Record Task : Type := {
  location : option string
}.

(** The [task] argument: a [string | Task], or no value at all. *)
Inductive TaskArg : Type :=
| TaskUndefined
| TaskNull
| TaskString (s : string)
| TaskObject (t : Task).

Module TaskAlreadyCompletedError.
Record t : Type := {
  message : string;
  location : string;
  response : Response
}.

Definition new (context location : string) (response : Response) : t :=
  {| message := context +:+ ": Task was already completed at location: "
                +:+ location;
     location := location;
     response := response |}.
End TaskAlreadyCompletedError.

(** Modelled from the spec: the error classes [NoTaskLocationError],
    [UnauthenticatedError], [UnauthorizedError] and [TaskNotFoundError],
    which the file of [completeTask] imports from the package's errors
    module: one kind of typed error each.  A constructor stands for
    [new C(...)] and keeps the arguments.  [TaskAlreadyCompleted] holds
    an instance of the class the file declares itself, and [Rethrown e]
    is [throw e] of the caught object: what [completeTask] rejects with
    is one of the six. *)
Inductive Thrown : Type :=
| NoTaskLocationError (context : string) (task : TaskArg)
| UnauthenticatedError (context : string) (response : Response)
| UnauthorizedError (context : string) (response : Response)
| TaskNotFoundError (context : string) (location : string)
    (response : Response)
| TaskAlreadyCompleted (e : TaskAlreadyCompletedError.t)
| Rethrown (e : ErrorObject).

Definition context : string := "Failed to complete task".

(** The request of [completeTask]:
    [axios.post(`${location}/completionState`, {complete: true}, {...})]. *)
Definition request (systemBaseUri authSessionId location : string)
  : Async ErrorObject Response :=
  axios.post (location +:+ "/completionState")
    (Object {[ "complete" := Bool true ]})
    {| baseURL := systemBaseUri;
       headers := {[ "Authorization" := "Bearer " +:+ authSessionId;
                     "Origin" := systemBaseUri ]};
       follows := None;
       templates := None;
       params := Undefined |}.

(** The [if (e.response) switch (e.response.status)] of the [catch]
    clause: the typed error of a listed status, [None] when control
    leaves the [if] without a [throw]. *)
Definition typed_error (location : string) (e : ErrorObject) : option Thrown :=
  match Runtime.response e with
  | Some r =>
      match status r with
      | 401 => Some (UnauthenticatedError context r)
      | 403 => Some (UnauthorizedError context r)
      | 404 => Some (TaskNotFoundError context location r)
      | 410 => Some (TaskAlreadyCompleted
                       (TaskAlreadyCompletedError.new context location r))
      | _ => None
      end
  | None => None
  end.

Definition on_catch (location : string) (e : ErrorObject) : Async Thrown unit :=
  match typed_error location e with
  | Some t => Rejected t
  | None =>
      Rejected (Rethrown
        (set_message e (context +:+ ": " +:+ Runtime.message e)))
  end.

(** The part of [completeTask] after [location] is assigned. *)
Definition complete_at (systemBaseUri authSessionId location : string)
  : Async Thrown unit :=
  try_catch
    (_ ← request systemBaseUri authSessionId location;
     mret tt)
    (on_catch location).

Definition completeTask (systemBaseUri authSessionId : string) (task : TaskArg)
  : Async Thrown unit :=
  match task with
  | TaskString s =>
      (* task && typeof task === "string" *)
      if truthy s then complete_at systemBaseUri authSessionId s
      else Rejected (NoTaskLocationError context task)
  | TaskObject t =>
      (* task && (task as Task).location *)
      match location t with
      | Some l =>
          if truthy l then complete_at systemBaseUri authSessionId l
          else Rejected (NoTaskLocationError context task)
      | None => Rejected (NoTaskLocationError context task)
      end
  | TaskUndefined | TaskNull => Rejected (NoTaskLocationError context task)
  end.

End Tasks.

(** ** The vocabulary of the specification *)

Module Spec.
Import Js Http Runtime.

(** Every HTTP request the body issues fails with [e]. *)
Definition fails_with {E A} (net : Network) (p : Async E A) (e : ErrorObject)
  : Prop :=
  ∀ c, c ∈ calls net p → net c = Throws e.

(** Every HTTP request the body issues succeeds with response [r]. *)
Definition succeeds_with {E A} (net : Network) (p : Async E A) (r : Response)
  : Prop :=
  ∀ c, c ∈ calls net p → net c = Returns r.

(** The status of the response an error carries, if it carries one. *)
Definition status_of (e : ErrorObject) : option Z :=
  status <$> response e.

(** A task argument resolves to the non-empty location [l]: it is the
    non-empty string [l], or an object whose [location] is [l]. *)
Inductive ResolvesTo : Tasks.TaskArg -> string -> Prop :=
| resolves_string (l : string) :
    l ≠ EmptyString -> ResolvesTo (Tasks.TaskString l) l
| resolves_object (t : Tasks.Task) (l : string) :
    Tasks.location t = Some l -> l ≠ EmptyString ->
    ResolvesTo (Tasks.TaskObject t) l.

(** [undefined] or [null]: a value whose properties cannot be read. *)
Definition nullish (v : Js.Value) : bool :=
  match v with
  | Undefined | Null => true
  | _ => false
  end.

(** The message of a rethrown error: context string, colon, space,
    original message. *)
Definition prefixed (context : string) (e e' : ErrorObject) : Prop :=
  message e' = context +:+ ": " +:+ message e.

(** Everything but the message is as it was. *)
Definition same_but_message (e e' : ErrorObject) : Prop :=
  name e' = name e ∧ response e' = response e ∧
  isAxiosErrorMark e' = isAxiosErrorMark e ∧ ownProps e' = ownProps e.

(** The call [completeTask] issues once the location is known. *)
Definition completion_call (systemBaseUri authSessionId l : string) : Call :=
  {| method := POST;
     url := l +:+ "/completionState";
     body := Some (Object {[ "complete" := Bool true ]});
     options :=
       {| baseURL := systemBaseUri;
          headers := {[ "Authorization" := "Bearer " +:+ authSessionId;
                        "Origin" := systemBaseUri ]};
          follows := None;
          templates := None;
          params := Undefined |} |}.

(** The call [getDmsObject] issues. *)
Definition dms_call (context : Dms.TenantContext)
    (p : Dms.GetDmsObjectParams.t) : Call :=
  {| method := GET;
     url := "/dms";
     body := None;
     options :=
       {| baseURL := Dms.systemBaseUri context;
          headers :=
            {[ "Authorization" := "Bearer " +:+ Dms.authSessionId context;
               "Accept" := "application/hal+json" ]};
          follows := Some ["repo"; "dmsobjectwithmapping"];
          templates :=
            Some {[ "repositoryid" := Dms.GetDmsObjectParams.repositoryId p;
                    "dmsobjectid" := Dms.GetDmsObjectParams.dmsObjectId p;
                    "sourceid" := Dms.GetDmsObjectParams.sourceId p ]};
          params := Undefined |} |}.

End Spec.

(** ** Concrete inputs *)

Module Samples.
Import Js Http Runtime.

Definition tenant : Dms.TenantContext :=
  {| Dms.systemBaseUri := "https://umbrella-corp.d-velop.cloud";
     Dms.authSessionId := "AUTH_SESSION_ID" |}.

Definition ids : Dms.GetDmsObjectParams.t :=
  {| Dms.GetDmsObjectParams.repositoryId := "repo-1";
     Dms.GetDmsObjectParams.sourceId := "/dms/r/repo-1/source";
     Dms.GetDmsObjectParams.dmsObjectId := "D000000001" |}.

Definition other_ids : Dms.GetDmsObjectParams.t :=
  {| Dms.GetDmsObjectParams.repositoryId := "repo-2";
     Dms.GetDmsObjectParams.sourceId := "/dms/r/repo-2/source";
     Dms.GetDmsObjectParams.dmsObjectId := "D000000002" |}.

Definition dms_body : Js.Value :=
  Object {[ "id" := Str "D000000001";
            "sourceCategories" := Array [Str "invoice"];
            "sourceProperties" :=
              Array [Object {[ "key" := Str "subject";
                               "value" := Str "Hello" ]}] ]}.

(** A request configuration that carries the two ids under [params]. *)
Definition config_with_params : RequestConfig :=
  {| baseURL := "https://umbrella-corp.d-velop.cloud";
     headers := {[ "Accept" := "application/hal+json" ]};
     follows := None;
     templates := None;
     params := Object {[ "repositoryid" := Str "repo-1";
                         "sourceid" := Str "/dms/r/repo-1/source" ]} |}.

Definition respond (code : Z) (body : Js.Value) (cfg : RequestConfig)
  : Response :=
  {| data := body;
     status := code;
     statusText := EmptyString;
     responseHeaders := ∅;
     config := cfg |}.

(** A 200 response with a well-formed body and the ids under
    [config.params]. *)
Definition ok_response : Response := respond 200 dms_body config_with_params.


(** An error carrying a response of the given status; [mark] tells
    whether axios recognizes it as its own. *)
Definition status_error (mark : bool) (code : Z) : ErrorObject :=
  {| name := "Error";
     message := "Request failed";
     response := Some (respond code Null config_with_params);
     isAxiosErrorMark := mark;
     ownProps := {[ "code" := Str "ERR_BAD_REQUEST" ]} |}.

(** A failure with no response at all. *)
Definition network_error : ErrorObject :=
  {| name := "Error";
     message := "Network Error";
     response := None;
     isAxiosErrorMark := true;
     ownProps := ∅ |}.

Definition failing (e : ErrorObject) : Network := fun _ => Throws e.
Definition answering (r : Response) : Network := fun _ => Returns r.

Definition base : string := "https://umbrella-corp.d-velop.cloud".
Definition session : string := "AUTH_SESSION_ID".
Definition task_location : string := "/some/task/location".

End Samples.

(** * Properties *)

Import Js Http Runtime Spec.

(** ** How the two bodies run *)

Section Running.

Lemma truthy_nonempty (s : string) : truthy s = true ↔ s ≠ EmptyString.
Proof. destruct s; simpl; split; congruence. Qed.

Lemma truthy_empty (s : string) : truthy s = false ↔ s = EmptyString.
Proof. destruct s; simpl; split; congruence. Qed.

Lemma set_message_same (e : ErrorObject) (m : string) :
  same_but_message e (set_message e m).
Proof. repeat split. Qed.

Lemma run_complete_at (net : Network) (sb sid l : string) :
  run net (Tasks.complete_at sb sid l) =
  ([completion_call sb sid l],
   match net (completion_call sb sid l) with
   | Returns _ => Returns tt
   | Throws e =>
       match Tasks.typed_error l e with
       | Some t => Throws t
       | None =>
           Throws (Tasks.Rethrown
             (set_message e (Tasks.context +:+ ": " +:+ message e)))
       end
   end).
Proof.
  unfold Tasks.complete_at, Tasks.request, axios.post, completion_call.
  cbn [mbind async_bind async_bind_fix try_catch run].
  destruct (net _) as [r|e]; cbn; [reflexivity|].
  unfold Tasks.on_catch. destruct (Tasks.typed_error l e); reflexivity.
Qed.

Lemma completeTask_resolved (sb sid : string) (task : Tasks.TaskArg)
    (l : string) :
  ResolvesTo task l →
  Tasks.completeTask sb sid task = Tasks.complete_at sb sid l.
Proof.
  intros [s Hs|t s Ht Hs]; cbn.
  - apply truthy_nonempty in Hs. now rewrite Hs.
  - rewrite Ht. apply truthy_nonempty in Hs. now rewrite Hs.
Qed.

Lemma completeTask_unresolved (sb sid : string) (task : Tasks.TaskArg) :
  (∀ l, ¬ ResolvesTo task l) →
  Tasks.completeTask sb sid task =
  Rejected (Tasks.NoTaskLocationError Tasks.context task).
Proof.
  intros Hno. destruct task as [| |s|t]; cbn; try reflexivity.
  - destruct (truthy s) eqn:Hs; [|reflexivity].
    exfalso. apply (Hno s). constructor. now apply truthy_nonempty.
  - destruct (Tasks.location t) as [l|] eqn:Hl; [|reflexivity].
    destruct (truthy l) eqn:Hs; [|reflexivity].
    exfalso. apply (Hno l). constructor; [assumption|].
    now apply truthy_nonempty.
Qed.

Lemma calls_complete_at (net : Network) (sb sid l : string) :
  calls net (Tasks.complete_at sb sid l) = [completion_call sb sid l].
Proof. unfold calls. now rewrite run_complete_at. Qed.

Lemma outcome_complete_at_fails (net : Network) (sb sid l : string)
    (e : ErrorObject) :
  fails_with net (Tasks.complete_at sb sid l) e →
  outcome net (Tasks.complete_at sb sid l) =
  match Tasks.typed_error l e with
  | Some t => Throws t
  | None =>
      Throws (Tasks.Rethrown
        (set_message e (Tasks.context +:+ ": " +:+ message e)))
  end.
Proof.
  intros Hf. unfold outcome. rewrite run_complete_at. cbn [snd].
  rewrite (Hf (completion_call sb sid l)); [reflexivity|].
  rewrite calls_complete_at. apply list_elem_of_singleton. reflexivity.
Qed.

End Running.

Section RunningDms.

Context {T : Type}.
Variables (context : Dms.TenantContext) (p : Dms.GetDmsObjectParams.t).
Variable transform : Response -> Completion ErrorObject T.

(** What the [catch] clause of [getDmsObject] throws for [e]. *)
Lemma dms_on_catch_eq (e : ErrorObject) :
  Dms.on_catch (T := T) e =
  Rejected
    (default
       (Dms.Rethrown (set_message e (Dms.errorContext +:+ ": " +:+ message e)))
       (Dms.typed_error e)).
Proof. unfold Dms.on_catch. now destruct (Dms.typed_error e). Qed.

Lemma run_getDmsObject (net : Network) :
  run net (Dms.getDmsObject context p transform) =
  ([dms_call context p],
   match net (dms_call context p) with
   | Returns r =>
       match transform r with
       | Returns v => Returns v
       | Throws e => snd (run net (Dms.on_catch (T := T) e))
       end
   | Throws e => snd (run net (Dms.on_catch (T := T) e))
   end).
Proof.
  unfold Dms.getDmsObject, Dms.request, axios.get, dms_call.
  cbn [mbind async_bind async_bind_fix try_catch run].
  destruct (net _) as [r|e]; cbn [lift async_bind_fix try_catch].
  - destruct (transform r) as [v|e]; cbn [lift try_catch run].
    + reflexivity.
    + rewrite dms_on_catch_eq. reflexivity.
  - rewrite dms_on_catch_eq. reflexivity.
Qed.

Lemma calls_getDmsObject (net : Network) :
  calls net (Dms.getDmsObject context p transform) = [dms_call context p].
Proof. unfold calls. now rewrite run_getDmsObject. Qed.

Lemma outcome_getDmsObject_fails (net : Network) (e : ErrorObject) :
  fails_with net (Dms.getDmsObject context p transform) e →
  outcome net (Dms.getDmsObject context p transform) =
  Throws
    (default
       (Dms.Rethrown (set_message e (Dms.errorContext +:+ ": " +:+ message e)))
       (Dms.typed_error e)).
Proof.
  intros Hf. unfold outcome. rewrite run_getDmsObject. cbn [snd].
  rewrite (Hf (dms_call context p)).
  - rewrite dms_on_catch_eq. reflexivity.
  - rewrite calls_getDmsObject. apply list_elem_of_singleton. reflexivity.
Qed.

Lemma outcome_getDmsObject_succeeds (net : Network) (r : Response) :
  succeeds_with net (Dms.getDmsObject context p transform) r →
  outcome net (Dms.getDmsObject context p transform) =
  match transform r with
  | Returns v => Returns v
  | Throws e =>
      Throws
        (default
           (Dms.Rethrown
              (set_message e (Dms.errorContext +:+ ": " +:+ message e)))
           (Dms.typed_error e))
  end.
Proof.
  intros Hs. unfold outcome. rewrite run_getDmsObject. cbn [snd].
  rewrite (Hs (dms_call context p)).
  - destruct (transform r); [reflexivity|].
    rewrite dms_on_catch_eq. reflexivity.
  - rewrite calls_getDmsObject. apply list_elem_of_singleton. reflexivity.
Qed.

End RunningDms.

(** ** completeTask *)

Section CompleteTask.

Variables (systemBaseUri authSessionId : string).

(** C1: when the task argument resolves to a non-empty location and
    the HTTP request fails with a response, status 401 makes
    [completeTask] throw [UnauthenticatedError], 403
    [UnauthorizedError], 404 [TaskNotFoundError] and 410
    [TaskAlreadyCompletedError] whose [location] is the resolved
    location. *)
Theorem completeTask_status_errors (task : Tasks.TaskArg) (l : string)
    (net : Network) (e : ErrorObject) (r : Response) :
  ResolvesTo task l →
  fails_with net (Tasks.completeTask systemBaseUri authSessionId task) e →
  response e = Some r →
  let result := outcome net (Tasks.completeTask systemBaseUri authSessionId task) in
  (status r = 401 →
   result = Throws (Tasks.UnauthenticatedError "Failed to complete task" r)) ∧
  (status r = 403 →
   result = Throws (Tasks.UnauthorizedError "Failed to complete task" r)) ∧
  (status r = 404 →
   result = Throws (Tasks.TaskNotFoundError "Failed to complete task" l r)) ∧
  (status r = 410 →
   ∃ err, result = Throws (Tasks.TaskAlreadyCompleted err) ∧
          Tasks.TaskAlreadyCompletedError.location err = l ∧
          Tasks.TaskAlreadyCompletedError.response err = r).
Proof.
  intros Hres Hf Hr result. subst result. revert Hf.
  rewrite (completeTask_resolved _ _ task l Hres). intros Hf.
  rewrite (outcome_complete_at_fails _ _ _ _ _ Hf).
  unfold Tasks.typed_error. rewrite Hr.
  repeat split; intros ->; try reflexivity.
  eexists. repeat split.
Qed.

(** C2: a task argument that is neither a non-empty string nor an
    object with a non-empty location makes [completeTask] throw
    [NoTaskLocationError] without awaiting anything: no HTTP request is
    issued, whatever the network.  This covers null, undefined, the
    empty string, and an object whose location is empty or absent. *)
Theorem completeTask_no_location :
  (∀ task : Tasks.TaskArg,
     (∀ l, ¬ ResolvesTo task l) →
     Tasks.completeTask systemBaseUri authSessionId task =
       Rejected (Tasks.NoTaskLocationError "Failed to complete task" task) ∧
     ∀ net : Network,
       run net (Tasks.completeTask systemBaseUri authSessionId task) =
       ([], Throws (Tasks.NoTaskLocationError "Failed to complete task" task)))
  ∧ (∀ l, ¬ ResolvesTo Tasks.TaskNull l)
  ∧ (∀ l, ¬ ResolvesTo Tasks.TaskUndefined l)
  ∧ (∀ l, ¬ ResolvesTo (Tasks.TaskString EmptyString) l)
  ∧ (∀ l, ¬ ResolvesTo (Tasks.TaskObject {| Tasks.location := Some EmptyString |}) l)
  ∧ (∀ l, ¬ ResolvesTo (Tasks.TaskObject {| Tasks.location := None |}) l).
Proof.
  split.
  - intros task Hno.
    rewrite (completeTask_unresolved _ _ task Hno). split; reflexivity.
  - repeat split; intros l H; inversion H; subst; cbn in *; congruence.
Qed.

(** C7: when the task argument resolves to the non-empty location [l],
    [completeTask] issues exactly one HTTP request, a POST to
    [l/completionState] with baseURL [systemBaseUri], body
    [{complete: true}] and the header [Authorization: Bearer
    authSessionId]; when the response is successful the call resolves
    with no value. *)
Theorem completeTask_request (task : Tasks.TaskArg) (l : string)
    (net : Network) :
  ResolvesTo task l →
  let body_ := Tasks.completeTask systemBaseUri authSessionId task in
  (∃ c, calls net body_ = [c] ∧
        method c = POST ∧
        url c = l +:+ "/completionState" ∧
        baseURL (options c) = systemBaseUri ∧
        body c = Some (Object {[ "complete" := Bool true ]}) ∧
        headers (options c) !! "Authorization"
          = Some ("Bearer " +:+ authSessionId)) ∧
  (∀ r, succeeds_with net body_ r → outcome net body_ = Returns tt).
Proof.
  intros Hres body_. subst body_.
  rewrite (completeTask_resolved _ _ task l Hres). split.
  - exists (completion_call systemBaseUri authSessionId l).
    rewrite calls_complete_at. repeat split.
  - intros r Hs. unfold outcome. rewrite run_complete_at. cbn [snd].
    rewrite (Hs (completion_call systemBaseUri authSessionId l));
      [reflexivity|].
    rewrite calls_complete_at. apply list_elem_of_singleton. reflexivity.
Qed.

End CompleteTask.

Lemma completeTask_status_errors_witness :
  let e := Samples.status_error false 410 in
  let task := Tasks.TaskString Samples.task_location in
  let body_ := Tasks.completeTask Samples.base Samples.session task in
  ResolvesTo task Samples.task_location ∧
  fails_with (Samples.failing e) body_ e ∧
  ∃ err, outcome (Samples.failing e) body_
           = Throws (Tasks.TaskAlreadyCompleted err) ∧
         Tasks.TaskAlreadyCompletedError.location err = "/some/task/location".
Proof.
  intros e task body_.
  assert (Hres : ResolvesTo task Samples.task_location)
    by (constructor; discriminate).
  assert (Hf : fails_with (Samples.failing e) body_ e)
    by (intros c _; reflexivity).
  split; [exact Hres|]. split; [exact Hf|].
  destruct (completeTask_status_errors Samples.base Samples.session
              task Samples.task_location (Samples.failing e) e
              (Samples.respond 410 Null Samples.config_with_params)
              Hres Hf eq_refl) as (_ & _ & _ & H410).
  destruct (H410 eq_refl) as (err & Herr & Hloc & _).
  exists err. split; [exact Herr | exact Hloc].
Defined.

Lemma completeTask_no_location_witness :
  (∀ l, ¬ ResolvesTo (Tasks.TaskObject {| Tasks.location := None |}) l) ∧
  run (Samples.answering Samples.ok_response)
      (Tasks.completeTask Samples.base Samples.session
         (Tasks.TaskObject {| Tasks.location := None |}))
  = ([], Throws (Tasks.NoTaskLocationError "Failed to complete task"
                   (Tasks.TaskObject {| Tasks.location := None |}))).
Proof.
  destruct (completeTask_no_location Samples.base Samples.session)
    as (Hgen & _ & _ & _ & _ & Habsent).
  split; [exact Habsent|].
  exact (proj2 (Hgen _ Habsent) (Samples.answering Samples.ok_response)).
Defined.

Lemma completeTask_request_witness :
  let task := Tasks.TaskObject {| Tasks.location := Some Samples.task_location |} in
  let body_ := Tasks.completeTask Samples.base Samples.session task in
  let net := Samples.answering Samples.ok_response in
  ResolvesTo task Samples.task_location ∧
  succeeds_with net body_ Samples.ok_response ∧
  (∃ c, calls net body_ = [c] ∧
        method c = POST ∧
        url c = "/some/task/location/completionState" ∧
        baseURL (options c) = "https://umbrella-corp.d-velop.cloud" ∧
        body c = Some (Object {[ "complete" := Bool true ]}) ∧
        headers (options c) !! "Authorization"
          = Some "Bearer AUTH_SESSION_ID") ∧
  outcome net body_ = Returns tt.
Proof.
  intros task body_ net.
  assert (Hres : ResolvesTo task Samples.task_location)
    by (constructor; [reflexivity | discriminate]).
  assert (Hs : succeeds_with net body_ Samples.ok_response)
    by (intros c _; reflexivity).
  split; [exact Hres|]. split; [exact Hs|].
  destruct (completeTask_request Samples.base Samples.session task
              Samples.task_location net Hres) as [Hcall Hok].
  split; [exact Hcall | exact (Hok _ Hs)].
Defined.

(** ** getDmsObject: the result *)

Section GetDmsObjectResult.

Variables (context : Dms.TenantContext) (p : Dms.GetDmsObjectParams.t).

Lemma transform_readable (r : Response) :
  nullish (params (config r)) = false →
  nullish (data r) = false →
  ∃ d, Dms.transformGetDmsObjectResponse r = Returns d ∧
       read (params (config r)) "repositoryid"
         = Returns (Dms.DmsObject.repositoryId d) ∧
       read (params (config r)) "sourceid"
         = Returns (Dms.DmsObject.sourceId d) ∧
       read (data r) "id" = Returns (Dms.DmsObject.id d) ∧
       read (data r) "sourceCategories"
         = Returns (Dms.DmsObject.categories d) ∧
       read (data r) "sourceProperties"
         = Returns (Dms.DmsObject.properties d).
Proof.
  unfold Dms.transformGetDmsObjectResponse.
  destruct (params (config r)); try discriminate;
    destruct (data r); try discriminate; intros _ _;
    eexists; repeat split.
Qed.

Lemma transform_returns_inv (r : Response) (d : Dms.DmsObject.t) :
  Dms.transformGetDmsObjectResponse r = Returns d →
  read (params (config r)) "repositoryid"
    = Returns (Dms.DmsObject.repositoryId d) ∧
  read (params (config r)) "sourceid"
    = Returns (Dms.DmsObject.sourceId d) ∧
  read (data r) "id" = Returns (Dms.DmsObject.id d).
Proof.
  unfold Dms.transformGetDmsObjectResponse.
  destruct (params (config r)); destruct (data r); cbn;
    try discriminate; intros [= <-]; repeat split.
Qed.

Lemma transform_nullish_params (r : Response) :
  nullish (params (config r)) = true →
  Dms.transformGetDmsObjectResponse r
  = Throws (TypeError_read (params (config r)) "repositoryid").
Proof.
  unfold Dms.transformGetDmsObjectResponse.
  destruct (params (config r)); try discriminate; reflexivity.
Qed.


(** C4: with a caller-supplied transform [t] and a successful response
    [r], [getDmsObject] returns what [t] returns on [r] itself; without
    one, [transformGetDmsObjectResponse] takes the place of [t]. *)
Theorem getDmsObject_applies_transform :
  (∀ (T : Type) (t : Response -> Completion ErrorObject T)
     (net : Network) (r : Response) (v : T),
     succeeds_with net (Dms.getDmsObject context p t) r →
     t r = Returns v →
     outcome net (Dms.getDmsObject context p t) = Returns v) ∧
  (∀ (net : Network) (r : Response) (d : Dms.DmsObject.t),
     succeeds_with net (Dms.getDmsObject_default context p) r →
     Dms.transformGetDmsObjectResponse r = Returns d →
     outcome net (Dms.getDmsObject_default context p) = Returns d) ∧
  Dms.getDmsObject_default context p
  = Dms.getDmsObject context p Dms.transformGetDmsObjectResponse.
Proof.
  repeat split.
  - intros T t net r v Hs Ht.
    rewrite (outcome_getDmsObject_succeeds _ _ _ _ _ Hs). now rewrite Ht.
  - intros net r d Hs Ht. unfold Dms.getDmsObject_default in *.
    rewrite (outcome_getDmsObject_succeeds _ _ _ _ _ Hs). now rewrite Ht.
Qed.

(** C10: the [repositoryId] and [sourceId] of the default transform's
    DmsObject are [response.config.params.repositoryid] and
    [response.config.params.sourceid]: they depend on nothing but
    [config.params] (not on the body, not on the caller's ids), although
    the request carries the ids under [templates] and has no [params];
    when [config.params] has no such entries the fields are undefined,
    and when [config.params] itself is undefined or null no DmsObject is
    produced. *)
Theorem default_transform_ids_from_config_params :
  (∀ r d, Dms.transformGetDmsObjectResponse r = Returns d →
     read (params (config r)) "repositoryid"
       = Returns (Dms.DmsObject.repositoryId d) ∧
     read (params (config r)) "sourceid"
       = Returns (Dms.DmsObject.sourceId d)) ∧
  (∀ r r' d d',
     params (config r) = params (config r') →
     Dms.transformGetDmsObjectResponse r = Returns d →
     Dms.transformGetDmsObjectResponse r' = Returns d' →
     Dms.DmsObject.repositoryId d = Dms.DmsObject.repositoryId d' ∧
     Dms.DmsObject.sourceId d = Dms.DmsObject.sourceId d') ∧
  (∀ (p' : Dms.GetDmsObjectParams.t) (net : Network) (r : Response),
     succeeds_with net (Dms.getDmsObject_default context p) r →
     succeeds_with net (Dms.getDmsObject_default context p') r →
     outcome net (Dms.getDmsObject_default context p)
     = outcome net (Dms.getDmsObject_default context p')) ∧
  (∀ net : Network,
     ∃ c, calls net (Dms.getDmsObject_default context p) = [c] ∧
          params (options c) = Undefined ∧
          ∃ m, templates (options c) = Some m ∧
               m !! "repositoryid"
                 = Some (Dms.GetDmsObjectParams.repositoryId p) ∧
               m !! "sourceid" = Some (Dms.GetDmsObjectParams.sourceId p)) ∧
  (∀ r d m, Dms.transformGetDmsObjectResponse r = Returns d →
     params (config r) = Object m →
     (m !! "repositoryid" = None →
      Dms.DmsObject.repositoryId d = Undefined) ∧
     (m !! "sourceid" = None → Dms.DmsObject.sourceId d = Undefined)) ∧
  (∀ r, nullish (params (config r)) = true →
     ∀ d, Dms.transformGetDmsObjectResponse r ≠ Returns d).
Proof.
  split; [|split; [|split; [|split; [|split]]]].
  - intros r d H. destruct (transform_returns_inv r d H) as (H1 & H2 & _).
    split; assumption.
  - intros r r' d d' Hcfg H H'.
    destruct (transform_returns_inv r d H) as (H1 & H2 & _).
    destruct (transform_returns_inv r' d' H') as (H1' & H2' & _).
    rewrite Hcfg in H1, H2. split; congruence.
  - intros p' net r Hs Hs'. unfold Dms.getDmsObject_default in *.
    rewrite (outcome_getDmsObject_succeeds _ _ _ _ _ Hs).
    rewrite (outcome_getDmsObject_succeeds _ _ _ _ _ Hs'). reflexivity.
  - intros net. exists (dms_call context p). unfold Dms.getDmsObject_default.
    rewrite calls_getDmsObject. repeat split.
    eexists. repeat split.
  - intros r d m H Hm.
    destruct (transform_returns_inv r d H) as (H1 & H2 & _).
    rewrite Hm in H1, H2. cbn in H1, H2.
    split; intros Hnone; rewrite Hnone in *; cbn in *; congruence.
  - intros r Hn d. rewrite (transform_nullish_params r Hn). discriminate.
Qed.

End GetDmsObjectResult.


Example default_result_on_ok_response :
  outcome (Samples.answering Samples.ok_response)
          (Dms.getDmsObject_default Samples.tenant Samples.ids)
  = Returns
      {| Dms.DmsObject.repositoryId := Str "repo-1";
         Dms.DmsObject.sourceId := Str "/dms/r/repo-1/source";
         Dms.DmsObject.id := Str "D000000001";
         Dms.DmsObject.categories := Array [Str "invoice"];
         Dms.DmsObject.properties :=
           Array [Object {[ "key" := Str "subject";
                            "value" := Str "Hello" ]}] |}.
Proof. reflexivity. Qed.

Lemma getDmsObject_applies_transform_witness :
  let net := Samples.answering Samples.ok_response in
  let t := fun r : Response => Returns (E := ErrorObject) (status r) in
  succeeds_with net (Dms.getDmsObject Samples.tenant Samples.ids t)
    Samples.ok_response ∧
  t Samples.ok_response = Returns 200 ∧
  outcome net (Dms.getDmsObject Samples.tenant Samples.ids t) = Returns 200.
Proof.
  intros net t.
  assert (Hs : succeeds_with net
                 (Dms.getDmsObject Samples.tenant Samples.ids t)
                 Samples.ok_response)
    by (intros c _; reflexivity).
  split; [exact Hs|]. split; [reflexivity|].
  exact (proj1 (getDmsObject_applies_transform Samples.tenant Samples.ids)
           Z t net Samples.ok_response 200 Hs eq_refl).
Defined.

Lemma default_transform_ids_from_config_params_witness :
  ∃ d, Dms.transformGetDmsObjectResponse Samples.ok_response = Returns d ∧
       Dms.DmsObject.repositoryId d = Str "repo-1" ∧
       Dms.DmsObject.sourceId d = Str "/dms/r/repo-1/source".
Proof.
  destruct (transform_readable Samples.ok_response eq_refl eq_refl)
    as (d & Hd & _).
  exists d. split; [exact Hd|].
  destruct (proj1 (default_transform_ids_from_config_params
                     Samples.tenant Samples.ids)
              Samples.ok_response d Hd) as [Hr Hs].
  vm_compute in Hr, Hs. injection Hr as Hr. injection Hs as Hs.
  split; symmetry; [exact Hr | exact Hs].
Defined.

(** ** The catch clauses *)

Section CatchClauses.

(** Case analysis on a status code along the numerals a [switch]
    lists: every other code falls through at once. *)
Ltac by_status s :=
  destruct s as [|s|s]; try reflexivity;
  repeat (destruct s as [s|s|]; try reflexivity).

Lemma dms_typed_error_eqb (e : ErrorObject) :
  Dms.typed_error e =
  if axios.isAxiosError e then
    match status_of e with
    | Some s =>
        if s =? 400 then Some (Dms.BadRequestError Dms.errorContext e)
        else if s =? 401 then Some (Dms.UnauthorizedError Dms.errorContext e)
        else if s =? 404 then Some (Dms.NotFoundError Dms.errorContext e)
        else None
    | None => None
    end
  else None.
Proof.
  unfold Dms.typed_error, status_of.
  destruct (axios.isAxiosError e); [|reflexivity].
  destruct (response e) as [r|]; [|reflexivity]. cbn [fmap option_fmap option_map].
  generalize (status r) as s. intros s. by_status s.
Qed.

Lemma tasks_typed_error_eqb (l : string) (e : ErrorObject) :
  Tasks.typed_error l e =
  match response e with
  | Some r =>
      if status r =? 401 then Some (Tasks.UnauthenticatedError Tasks.context r)
      else if status r =? 403
      then Some (Tasks.UnauthorizedError Tasks.context r)
      else if status r =? 404
      then Some (Tasks.TaskNotFoundError Tasks.context l r)
      else if status r =? 410
      then Some (Tasks.TaskAlreadyCompleted
                   (Tasks.TaskAlreadyCompletedError.new Tasks.context l r))
      else None
  | None => None
  end.
Proof.
  unfold Tasks.typed_error.
  destruct (response e) as [r|]; [|reflexivity].
  generalize (status r) as s. intros s. by_status s.
Qed.

Lemma dms_typed_error_not_axios (e : ErrorObject) :
  axios.isAxiosError e = false → Dms.typed_error e = None.
Proof. intros H. unfold Dms.typed_error. now rewrite H. Qed.

Lemma dms_typed_error_unlisted (e : ErrorObject) :
  status_of e ≠ Some 400 → status_of e ≠ Some 401 → status_of e ≠ Some 404 →
  Dms.typed_error e = None.
Proof.
  intros H0 H1 H4. rewrite dms_typed_error_eqb.
  destruct (axios.isAxiosError e); [|reflexivity].
  destruct (status_of e) as [s|]; [|reflexivity].
  destruct (Z.eqb_spec s 400) as [->|_]; [congruence|].
  destruct (Z.eqb_spec s 401) as [->|_]; [congruence|].
  destruct (Z.eqb_spec s 404) as [->|_]; [congruence|].
  reflexivity.
Qed.

Lemma tasks_typed_error_unlisted (l : string) (e : ErrorObject) :
  status_of e ≠ Some 401 → status_of e ≠ Some 403 →
  status_of e ≠ Some 404 → status_of e ≠ Some 410 →
  Tasks.typed_error l e = None.
Proof.
  intros H1 H3 H4 H10. rewrite tasks_typed_error_eqb.
  unfold status_of in *. destruct (response e) as [r|]; [|reflexivity].
  cbn in H1, H3, H4, H10.
  destruct (Z.eqb_spec (status r) 401) as [E|_]; [congruence|].
  destruct (Z.eqb_spec (status r) 403) as [E|_]; [congruence|].
  destruct (Z.eqb_spec (status r) 404) as [E|_]; [congruence|].
  destruct (Z.eqb_spec (status r) 410) as [E|_]; [congruence|].
  reflexivity.
Qed.

Lemma rethrown_prefixed (context : string) (e : ErrorObject) :
  prefixed context e (set_message e (context +:+ ": " +:+ message e)) ∧
  same_but_message e (set_message e (context +:+ ": " +:+ message e)).
Proof. split; [reflexivity | apply set_message_same]. Qed.

End CatchClauses.

(** ** getDmsObject and completeTask: failures *)

Section Failures.

Context {T : Type}.
Variables (context : Dms.TenantContext) (p : Dms.GetDmsObjectParams.t).
Variable transform : Response -> Completion ErrorObject T.
Variables (systemBaseUri authSessionId : string).

(** C5: when the HTTP request of [getDmsObject] fails with a response,
    status 400 makes the call throw [BadRequestError], 401
    [UnauthorizedError] and 404 [NotFoundError], none of them the
    rethrown error and none a result.  The request is one axios made:
    the error of a failed request that carries a response bears the
    mark of axios. *)
Theorem getDmsObject_status_errors (net : Network) (e : ErrorObject)
    (r : Response) :
  axios.marks_failures net →
  fails_with net (Dms.getDmsObject context p transform) e →
  response e = Some r →
  let result := outcome net (Dms.getDmsObject context p transform) in
  (status r = 400 →
   result = Throws (Dms.BadRequestError "Failed to get dmsObject" e)) ∧
  (status r = 401 →
   result = Throws (Dms.UnauthorizedError "Failed to get dmsObject" e)) ∧
  (status r = 404 →
   result = Throws (Dms.NotFoundError "Failed to get dmsObject" e)).
Proof.
  intros Hnet Hf Hr result. subst result.
  assert (Hax : axios.isAxiosError e = true).
  { apply (Hnet (dms_call context p) e r); [|exact Hr].
    apply Hf. rewrite calls_getDmsObject.
    apply list_elem_of_singleton. reflexivity. }
  rewrite (outcome_getDmsObject_fails _ _ _ _ _ Hf).
  unfold Dms.typed_error. rewrite Hax, Hr. cbn [fmap option_fmap option_map].
  repeat split; intros ->; reflexivity.
Qed.

(** C6, amended: when the HTTP request of [getDmsObject] fails with a
    response of status 403, the call throws no typed error: the caught
    error is rethrown, its message prefixed with
    ["Failed to get dmsObject: "]. *)
Theorem getDmsObject_status_403 (net : Network) (e : ErrorObject)
    (r : Response) :
  fails_with net (Dms.getDmsObject context p transform) e →
  response e = Some r →
  status r = 403 →
  ∃ e', outcome net (Dms.getDmsObject context p transform)
          = Throws (Dms.Rethrown e') ∧
        message e' = "Failed to get dmsObject: " +:+ message e ∧
        same_but_message e e'.
Proof.
  intros Hf Hr H403.
  rewrite (outcome_getDmsObject_fails _ _ _ _ _ Hf).
  rewrite dms_typed_error_unlisted;
    try (unfold status_of; rewrite Hr; cbn; rewrite H403; discriminate).
  eexists. split; [reflexivity|]. apply rethrown_prefixed.
Qed.

(** C8: a failure of [getDmsObject] (of its request, or of the
    transform) whose status is none of 400, 401, 404, or a failure of
    [completeTask] whose status is none of 401, 403, 404, 410 (a failure
    without a response is one of these), is rethrown as the caught error
    itself, with its message replaced by the context string, a colon, a
    space and the original message, and with nothing else changed. *)
Theorem unlisted_failures_rethrown (net : Network) (e : ErrorObject) :
  (fails_with net (Dms.getDmsObject context p transform) e →
   status_of e ≠ Some 400 → status_of e ≠ Some 401 →
   status_of e ≠ Some 404 →
   ∃ e', outcome net (Dms.getDmsObject context p transform)
           = Throws (Dms.Rethrown e') ∧
         message e' = "Failed to get dmsObject" +:+ ": " +:+ message e ∧
         same_but_message e e') ∧
  (∀ r,
   succeeds_with net (Dms.getDmsObject context p transform) r →
   transform r = Throws e →
   status_of e ≠ Some 400 → status_of e ≠ Some 401 →
   status_of e ≠ Some 404 →
   ∃ e', outcome net (Dms.getDmsObject context p transform)
           = Throws (Dms.Rethrown e') ∧
         message e' = "Failed to get dmsObject" +:+ ": " +:+ message e ∧
         same_but_message e e') ∧
  (∀ task l,
   ResolvesTo task l →
   fails_with net (Tasks.completeTask systemBaseUri authSessionId task) e →
   status_of e ≠ Some 401 → status_of e ≠ Some 403 →
   status_of e ≠ Some 404 → status_of e ≠ Some 410 →
   ∃ e', outcome net (Tasks.completeTask systemBaseUri authSessionId task)
           = Throws (Tasks.Rethrown e') ∧
         message e' = "Failed to complete task" +:+ ": " +:+ message e ∧
         same_but_message e e').
Proof.
  split; [|split].
  - intros Hf H0 H1 H4.
    rewrite (outcome_getDmsObject_fails _ _ _ _ _ Hf).
    rewrite (dms_typed_error_unlisted e H0 H1 H4).
    eexists. split; [reflexivity|]. apply rethrown_prefixed.
  - intros r Hs Ht H0 H1 H4.
    rewrite (outcome_getDmsObject_succeeds _ _ _ _ _ Hs), Ht.
    rewrite (dms_typed_error_unlisted e H0 H1 H4).
    eexists. split; [reflexivity|]. apply rethrown_prefixed.
  - intros task l Hres Hf H1 H3 H4 H10. revert Hf.
    rewrite (completeTask_resolved _ _ task l Hres). intros Hf.
    rewrite (outcome_complete_at_fails _ _ _ _ _ Hf).
    rewrite (tasks_typed_error_unlisted l e H1 H3 H4 H10).
    eexists. split; [reflexivity|]. apply rethrown_prefixed.
Qed.

(** C9: [getDmsObject] maps statuses to typed errors for axios errors
    only: a thrown value that [axios.isAxiosError] does not recognize is
    rethrown with the prefixed message, whatever response it carries
    (status 400, 401 and 404 included); [completeTask] maps the status
    of any error that has a response, recognized by axios or not. *)
Theorem typed_mapping_guard (net : Network) (e : ErrorObject) :
  (fails_with net (Dms.getDmsObject context p transform) e →
   axios.isAxiosError e = false →
   ∃ e', outcome net (Dms.getDmsObject context p transform)
           = Throws (Dms.Rethrown e') ∧
         message e' = "Failed to get dmsObject: " +:+ message e ∧
         same_but_message e e') ∧
  (∀ task l r,
   ResolvesTo task l →
   fails_with net (Tasks.completeTask systemBaseUri authSessionId task) e →
   axios.isAxiosError e = false →
   response e = Some r →
   let result :=
     outcome net (Tasks.completeTask systemBaseUri authSessionId task) in
   (status r = 401 →
    result = Throws (Tasks.UnauthenticatedError "Failed to complete task" r)) ∧
   (status r = 403 →
    result = Throws (Tasks.UnauthorizedError "Failed to complete task" r)) ∧
   (status r = 404 →
    result = Throws (Tasks.TaskNotFoundError "Failed to complete task" l r)) ∧
   (status r = 410 →
    result = Throws (Tasks.TaskAlreadyCompleted
               (Tasks.TaskAlreadyCompletedError.new
                  "Failed to complete task" l r)))).
Proof.
  split.
  - intros Hf Hax.
    rewrite (outcome_getDmsObject_fails _ _ _ _ _ Hf).
    rewrite (dms_typed_error_not_axios e Hax).
    eexists. split; [reflexivity|]. apply rethrown_prefixed.
  - intros task l r Hres Hf _ Hr result. subst result. revert Hf.
    rewrite (completeTask_resolved _ _ task l Hres). intros Hf.
    rewrite (outcome_complete_at_fails _ _ _ _ _ Hf).
    unfold Tasks.typed_error. rewrite Hr.
    repeat split; intros ->; reflexivity.
Qed.

End Failures.

Lemma getDmsObject_status_errors_witness :
  let e := Samples.status_error true 404 in
  let net := Samples.failing e in
  let body_ := Dms.getDmsObject_default Samples.tenant Samples.ids in
  axios.marks_failures net ∧
  fails_with net body_ e ∧
  status_of e = Some 404 ∧
  outcome net body_ = Throws (Dms.NotFoundError "Failed to get dmsObject" e).
Proof.
  intros e net body_.
  assert (Hnet : axios.marks_failures net)
    by (intros c e' r' [= <-] _; reflexivity).
  assert (Hf : fails_with net body_ e) by (intros c _; reflexivity).
  split; [exact Hnet|]. split; [exact Hf|]. split; [reflexivity|].
  destruct (getDmsObject_status_errors Samples.tenant Samples.ids
              Dms.transformGetDmsObjectResponse net e
              (Samples.respond 404 Null Samples.config_with_params)
              Hnet Hf eq_refl) as (_ & _ & H404).
  exact (H404 eq_refl).
Defined.

(** C6 as stated fails: an axios error of status 403 is not turned into
    [UnauthorizedError]; it is rethrown with the prefixed message. *)
Lemma getDmsObject_403_rethrown :
  let e := Samples.status_error true 403 in
  let net := Samples.failing e in
  let body_ := Dms.getDmsObject_default Samples.tenant Samples.ids in
  fails_with net body_ e ∧
  axios.isAxiosError e = true ∧
  status_of e = Some 403 ∧
  outcome net body_ =
    Throws (Dms.Rethrown
      {| name := "Error";
         message := "Failed to get dmsObject: Request failed";
         response := response e;
         isAxiosErrorMark := true;
         ownProps := ownProps e |}) ∧
  ∀ c e', outcome net body_ ≠ Throws (Dms.UnauthorizedError c e').
Proof.
  intros e net body_.
  split; [intros c _; reflexivity|].
  split; [reflexivity|]. split; [reflexivity|]. split; [reflexivity|].
  intros c e' H. discriminate H.
Qed.

Lemma getDmsObject_status_403_witness :
  let e := Samples.status_error true 403 in
  let net := Samples.failing e in
  let body_ := Dms.getDmsObject_default Samples.tenant Samples.ids in
  fails_with net body_ e ∧
  status_of e = Some 403 ∧
  ∃ e', outcome net body_ = Throws (Dms.Rethrown e') ∧
        message e' = "Failed to get dmsObject: Request failed" ∧
        same_but_message e e'.
Proof.
  intros e net body_.
  assert (Hf : fails_with net body_ e) by (intros c _; reflexivity).
  split; [exact Hf|]. split; [reflexivity|].
  exact (getDmsObject_status_403 Samples.tenant Samples.ids
           Dms.transformGetDmsObjectResponse net e
           (Samples.respond 403 Null Samples.config_with_params)
           Hf eq_refl eq_refl).
Defined.

Lemma unlisted_failures_rethrown_witness :
  let e := Samples.network_error in
  let net := Samples.failing e in
  let body_ := Tasks.completeTask Samples.base Samples.session
                 (Tasks.TaskString Samples.task_location) in
  ResolvesTo (Tasks.TaskString Samples.task_location) Samples.task_location ∧
  fails_with net body_ e ∧
  status_of e = None ∧
  ∃ e', outcome net body_ = Throws (Tasks.Rethrown e') ∧
        message e' = "Failed to complete task: Network Error" ∧
        same_but_message e e'.
Proof.
  intros e net body_.
  assert (Hres : ResolvesTo (Tasks.TaskString Samples.task_location)
                   Samples.task_location)
    by (constructor; discriminate).
  assert (Hf : fails_with net body_ e) by (intros c _; reflexivity).
  split; [exact Hres|]. split; [exact Hf|]. split; [reflexivity|].
  refine (proj2 (proj2 (unlisted_failures_rethrown Samples.tenant Samples.ids
                   Dms.transformGetDmsObjectResponse
                   Samples.base Samples.session net e))
            _ _ Hres Hf _ _ _ _); discriminate.
Defined.

Lemma typed_mapping_guard_witness :
  let e := Samples.status_error false 401 in
  let net := Samples.failing e in
  let body_ := Dms.getDmsObject_default Samples.tenant Samples.ids in
  fails_with net body_ e ∧
  axios.isAxiosError e = false ∧
  status_of e = Some 401 ∧
  ∃ e', outcome net body_ = Throws (Dms.Rethrown e') ∧
        message e' = "Failed to get dmsObject: Request failed" ∧
        same_but_message e e'.
Proof.
  intros e net body_.
  assert (Hf : fails_with net body_ e) by (intros c _; reflexivity).
  split; [exact Hf|]. split; [reflexivity|]. split; [reflexivity|].
  exact (proj1 (typed_mapping_guard Samples.tenant Samples.ids
                  Dms.transformGetDmsObjectResponse
                  Samples.base Samples.session net e) Hf eq_refl).
Defined.

(** * Further properties *)

(** ** The requests *)

Section Requests.

Context {T : Type}.
Variables (context : Dms.TenantContext) (p : Dms.GetDmsObjectParams.t).
Variable transform : Response -> Completion ErrorObject T.
Variables (systemBaseUri authSessionId : string).

(** X1: whatever the transform and whatever the network answers,
    [getDmsObject] issues exactly one HTTP request: a GET of ["/dms"]
    without a body, with baseURL [context.systemBaseUri], exactly the
    two headers [Authorization: Bearer authSessionId] and
    [Accept: application/hal+json], the relation chain
    [repo], [dmsobjectwithmapping], and exactly the three template
    values [repositoryid], [dmsobjectid] and [sourceid] taken from the
    caller's ids. *)
Theorem getDmsObject_request (net : Network) :
  ∃ c, calls net (Dms.getDmsObject context p transform) = [c] ∧
       method c = GET ∧ url c = "/dms" ∧ body c = None ∧
       baseURL (options c) = Dms.systemBaseUri context ∧
       headers (options c) !! "Authorization"
         = Some ("Bearer " +:+ Dms.authSessionId context) ∧
       headers (options c) !! "Accept" = Some "application/hal+json" ∧
       dom (headers (options c)) = {[ "Authorization"; "Accept" ]} ∧
       follows (options c) = Some ["repo"; "dmsobjectwithmapping"] ∧
       ∃ m, templates (options c) = Some m ∧
            m !! "repositoryid"
              = Some (Dms.GetDmsObjectParams.repositoryId p) ∧
            m !! "dmsobjectid"
              = Some (Dms.GetDmsObjectParams.dmsObjectId p) ∧
            m !! "sourceid" = Some (Dms.GetDmsObjectParams.sourceId p) ∧
            dom m = {[ "repositoryid"; "dmsobjectid"; "sourceid" ]}.
Proof.
  exists (dms_call context p). rewrite calls_getDmsObject.
  do 7 (split; [reflexivity|]).
  split; [cbn; rewrite !dom_insert_L, dom_singleton_L; set_solver|].
  split; [reflexivity|].
  eexists. split; [reflexivity|].
  do 3 (split; [reflexivity|]).
  rewrite !dom_insert_L, dom_singleton_L. set_solver.
Qed.

(** X2: the request of [completeTask] carries exactly two headers,
    [Authorization] and [Origin], and [Origin] is the base URI the
    request is sent to; it carries no relation chain, no templates and
    no params. *)
Theorem completeTask_request_config (task : Tasks.TaskArg) (l : string)
    (net : Network) :
  ResolvesTo task l →
  ∃ c, calls net (Tasks.completeTask systemBaseUri authSessionId task) = [c] ∧
       headers (options c) !! "Origin" = Some systemBaseUri ∧
       headers (options c) !! "Origin" = Some (baseURL (options c)) ∧
       dom (headers (options c)) = {[ "Authorization"; "Origin" ]} ∧
       follows (options c) = None ∧
       templates (options c) = None ∧
       params (options c) = Undefined.
Proof.
  intros Hres. rewrite (completeTask_resolved _ _ task l Hres).
  exists (completion_call systemBaseUri authSessionId l).
  rewrite calls_complete_at.
  do 3 (split; [reflexivity|]).
  split; [|repeat split].
  cbn. rewrite !dom_insert_L, dom_singleton_L. set_solver.
Qed.

End Requests.

Lemma completeTask_request_config_witness :
  let task := Tasks.TaskString Samples.task_location in
  let net := Samples.failing Samples.network_error in
  ResolvesTo task Samples.task_location ∧
  ∃ c, calls net (Tasks.completeTask Samples.base Samples.session task) = [c] ∧
       headers (options c) !! "Origin"
         = Some "https://umbrella-corp.d-velop.cloud" ∧
       dom (headers (options c)) = {[ "Authorization"; "Origin" ]}.
Proof.
  intros task net.
  assert (Hres : ResolvesTo task Samples.task_location)
    by (constructor; discriminate).
  split; [exact Hres|].
  destruct (completeTask_request_config Samples.base Samples.session
              task Samples.task_location net Hres)
    as (c & Hc & Ho & _ & Hd & _).
  exists c. split; [exact Hc|]. split; [exact Ho | exact Hd].
Defined.

(** ** completeTask: the task argument and the errors *)

Section CompleteTaskMore.

Variables (systemBaseUri authSessionId : string).

Lemma resolves_or_not (task : Tasks.TaskArg) :
  (∃ l, ResolvesTo task l) ∨ (∀ l, ¬ ResolvesTo task l).
Proof.
  destruct task as [| |s|[[l|]]].
  - right. intros l H. inversion H.
  - right. intros l H. inversion H.
  - destruct s as [|a s].
    + right. intros l H. inversion H. congruence.
    + left. eexists. constructor. discriminate.
  - destruct l as [|a l].
    + right. intros l H. inversion H; subst. cbn in *. congruence.
    + left. eexists. constructor; [reflexivity | discriminate].
  - right. intros l H. inversion H; subst. cbn in *. congruence.
Qed.

Lemma resolves_unique (task : Tasks.TaskArg) (l l' : string) :
  ResolvesTo task l → ResolvesTo task l' → l = l'.
Proof.
  intros H H'. inversion H; subst; inversion H'; subst; congruence.
Qed.

(** X3: a non-empty location given as a string and the same location
    given as the [location] of a task object make [completeTask] do
    the same thing: the same request and, on every network, the same
    outcome. *)
Theorem completeTask_string_or_object (l : string) (net : Network) :
  l ≠ EmptyString →
  run net (Tasks.completeTask systemBaseUri authSessionId (Tasks.TaskString l))
  = run net (Tasks.completeTask systemBaseUri authSessionId
               (Tasks.TaskObject {| Tasks.location := Some l |})).
Proof.
  intros Hl.
  rewrite (completeTask_resolved _ _ (Tasks.TaskString l) l)
    by (constructor; assumption).
  rewrite (completeTask_resolved _ _ (Tasks.TaskObject _) l)
    by (constructor; [reflexivity | assumption]).
  reflexivity.
Qed.

(** X4: the [TaskAlreadyCompletedError] thrown for status 410 has the
    message ["Failed to complete task: Task was already completed at
    location: "] followed by the resolved location, and carries the
    response of the caught error. *)
Theorem completeTask_410_message (task : Tasks.TaskArg) (l : string)
    (net : Network) (e : ErrorObject) (r : Response) :
  ResolvesTo task l →
  fails_with net (Tasks.completeTask systemBaseUri authSessionId task) e →
  response e = Some r →
  status r = 410 →
  ∃ err, outcome net (Tasks.completeTask systemBaseUri authSessionId task)
           = Throws (Tasks.TaskAlreadyCompleted err) ∧
         Tasks.TaskAlreadyCompletedError.message err
           = "Failed to complete task: Task was already completed at location: "
             +:+ l ∧
         Tasks.TaskAlreadyCompletedError.response err = r.
Proof.
  intros Hres Hf Hr H410. revert Hf.
  rewrite (completeTask_resolved _ _ task l Hres). intros Hf.
  rewrite (outcome_complete_at_fails _ _ _ _ _ Hf).
  unfold Tasks.typed_error. rewrite Hr, H410.
  eexists. repeat split.
Qed.

(** X5: [completeTask] throws a typed error for no other failure than
    the one of its status: when the request fails with [e], an
    [UnauthenticatedError] means [e] carries a response of status 401,
    an [UnauthorizedError] one of status 403, a [TaskNotFoundError] one
    of status 404 and the resolved location, a
    [TaskAlreadyCompletedError] one of status 410, always with that
    very response; a rethrown error means the status is none of the
    four; [NoTaskLocationError] is not thrown, and the call does not
    resolve. *)
Theorem completeTask_thrown_inv (task : Tasks.TaskArg) (l : string)
    (net : Network) (e : ErrorObject) :
  ResolvesTo task l →
  fails_with net (Tasks.completeTask systemBaseUri authSessionId task) e →
  ∃ x, outcome net (Tasks.completeTask systemBaseUri authSessionId task)
         = Throws x ∧
       match x with
       | Tasks.NoTaskLocationError _ _ => False
       | Tasks.UnauthenticatedError _ r =>
           response e = Some r ∧ status r = 401
       | Tasks.UnauthorizedError _ r =>
           response e = Some r ∧ status r = 403
       | Tasks.TaskNotFoundError _ l' r =>
           response e = Some r ∧ status r = 404 ∧ l' = l
       | Tasks.TaskAlreadyCompleted err =>
           response e = Some (Tasks.TaskAlreadyCompletedError.response err) ∧
           status (Tasks.TaskAlreadyCompletedError.response err) = 410 ∧
           Tasks.TaskAlreadyCompletedError.location err = l
       | Tasks.Rethrown _ =>
           status_of e ≠ Some 401 ∧ status_of e ≠ Some 403 ∧
           status_of e ≠ Some 404 ∧ status_of e ≠ Some 410
       end.
Proof.
  intros Hres Hf. revert Hf.
  rewrite (completeTask_resolved _ _ task l Hres). intros Hf.
  rewrite (outcome_complete_at_fails _ _ _ _ _ Hf).
  rewrite tasks_typed_error_eqb. unfold status_of.
  destruct (response e) as [r|]; cbn [fmap option_fmap option_map].
  - destruct (Z.eqb_spec (status r) 401) as [E1|N1];
      [eexists; split; [reflexivity|]; cbn; auto|].
    destruct (Z.eqb_spec (status r) 403) as [E3|N3];
      [eexists; split; [reflexivity|]; cbn; auto|].
    destruct (Z.eqb_spec (status r) 404) as [E4|N4];
      [eexists; split; [reflexivity|]; cbn; auto|].
    destruct (Z.eqb_spec (status r) 410) as [E10|N10];
      [eexists; split; [reflexivity|]; cbn; auto|].
    eexists. split; [reflexivity|]. cbn. repeat split; congruence.
  - eexists. split; [reflexivity|]. cbn. repeat split; discriminate.
Qed.

(** X6: [completeTask] never issues more than one HTTP request, and it
    issues none exactly when the task argument resolves to no non-empty
    location, which is exactly when it throws [NoTaskLocationError]. *)
Theorem completeTask_at_most_one_request (task : Tasks.TaskArg)
    (net : Network) :
  let body_ := Tasks.completeTask systemBaseUri authSessionId task in
  (length (calls net body_) ≤ 1)%nat ∧
  (calls net body_ = [] ↔ ∀ l, ¬ ResolvesTo task l) ∧
  ((∃ c t, outcome net body_ = Throws (Tasks.NoTaskLocationError c t))
   ↔ ∀ l, ¬ ResolvesTo task l).
Proof.
  intros body_. subst body_.
  destruct (resolves_or_not task) as [[l Hres]|Hno].
  - rewrite (completeTask_resolved _ _ task l Hres).
    rewrite calls_complete_at. split; [cbn; lia|]. split.
    + split; [discriminate|]. intros Hno. destruct (Hno l Hres).
    + split; [|intros Hno; destruct (Hno l Hres)].
      intros (c & t & H). exfalso. revert H.
      unfold outcome. rewrite run_complete_at. cbn [snd].
      destruct (net _) as [r|e]; [discriminate|].
      rewrite tasks_typed_error_eqb.
      destruct (response e) as [r|]; [|discriminate].
      destruct (status r =? 401); [discriminate|].
      destruct (status r =? 403); [discriminate|].
      destruct (status r =? 404); [discriminate|].
      destruct (status r =? 410); discriminate.
  - rewrite (completeTask_unresolved _ _ task Hno).
    split; [cbn; lia|]. split; [split; auto|].
    split; [auto|]. intros _. eexists _, _. reflexivity.
Qed.

End CompleteTaskMore.

Lemma completeTask_string_or_object_witness :
  Samples.task_location ≠ EmptyString ∧
  run (Samples.failing (Samples.status_error true 404))
      (Tasks.completeTask Samples.base Samples.session
         (Tasks.TaskString Samples.task_location))
  = run (Samples.failing (Samples.status_error true 404))
        (Tasks.completeTask Samples.base Samples.session
           (Tasks.TaskObject {| Tasks.location := Some Samples.task_location |})).
Proof.
  assert (Hl : Samples.task_location ≠ EmptyString) by discriminate.
  split; [exact Hl|].
  exact (completeTask_string_or_object Samples.base Samples.session
           Samples.task_location _ Hl).
Defined.

Lemma completeTask_410_message_witness :
  let e := Samples.status_error true 410 in
  let task := Tasks.TaskObject {| Tasks.location := Some Samples.task_location |} in
  let body_ := Tasks.completeTask Samples.base Samples.session task in
  ResolvesTo task Samples.task_location ∧
  fails_with (Samples.failing e) body_ e ∧
  ∃ err, outcome (Samples.failing e) body_
           = Throws (Tasks.TaskAlreadyCompleted err) ∧
         Tasks.TaskAlreadyCompletedError.message err
           = "Failed to complete task: Task was already completed at location: /some/task/location".
Proof.
  intros e task body_.
  assert (Hres : ResolvesTo task Samples.task_location)
    by (constructor; [reflexivity | discriminate]).
  assert (Hf : fails_with (Samples.failing e) body_ e)
    by (intros c _; reflexivity).
  split; [exact Hres|]. split; [exact Hf|].
  destruct (completeTask_410_message Samples.base Samples.session task
              Samples.task_location (Samples.failing e) e
              (Samples.respond 410 Null Samples.config_with_params)
              Hres Hf eq_refl eq_refl) as (err & Herr & Hmsg & _).
  exists err. split; [exact Herr | exact Hmsg].
Defined.

Lemma completeTask_thrown_inv_witness :
  let e := Samples.status_error false 500 in
  let task := Tasks.TaskString Samples.task_location in
  let body_ := Tasks.completeTask Samples.base Samples.session task in
  ResolvesTo task Samples.task_location ∧
  fails_with (Samples.failing e) body_ e ∧
  ∃ x, outcome (Samples.failing e) body_ = Throws x ∧
       match x with
       | Tasks.Rethrown _ => status_of e ≠ Some 401
       | _ => True
       end.
Proof.
  intros e task body_.
  assert (Hres : ResolvesTo task Samples.task_location)
    by (constructor; discriminate).
  assert (Hf : fails_with (Samples.failing e) body_ e)
    by (intros c _; reflexivity).
  split; [exact Hres|]. split; [exact Hf|].
  destruct (completeTask_thrown_inv Samples.base Samples.session task
              Samples.task_location (Samples.failing e) e Hres Hf)
    as (x & Hx & Hm).
  exists x. split; [exact Hx|].
  destruct x; try exact I. exact (proj1 Hm).
Defined.

(** ** getDmsObject: the default transform and the catch clause *)

Section GetDmsObjectMore.

Variables (context : Dms.TenantContext) (p : Dms.GetDmsObjectParams.t).

Lemma transform_nullish_data (r : Response) :
  nullish (params (config r)) = false →
  nullish (data r) = true →
  Dms.transformGetDmsObjectResponse r
  = Throws (TypeError_read (data r) "id").
Proof.
  unfold Dms.transformGetDmsObjectResponse.
  destruct (params (config r)); try discriminate;
    destruct (data r); try discriminate; reflexivity.
Qed.

Lemma type_error_untyped (base : Js.Value) (prop : string) :
  Dms.typed_error (TypeError_read base prop) = None.
Proof. reflexivity. Qed.

(** X7: on a successful response, [getDmsObject] with the default
    transform returns a DmsObject exactly when [response.config.params]
    and [response.data] are both neither undefined nor null.
    Otherwise it throws no typed error: it rethrows the TypeError of
    the first failing read ([repositoryid] of [config.params] if that is
    undefined or null, else [id] of [data]) with the message prefixed by
    ["Failed to get dmsObject: "]. *)
Theorem getDmsObject_default_returns_iff (net : Network) (r : Response) :
  succeeds_with net (Dms.getDmsObject_default context p) r →
  let result := outcome net (Dms.getDmsObject_default context p) in
  ((∃ d, result = Returns d) ↔
   nullish (params (config r)) = false ∧ nullish (data r) = false) ∧
  (nullish (params (config r)) = true →
   result = Throws (Dms.Rethrown
     (set_message (TypeError_read (params (config r)) "repositoryid")
        ("Failed to get dmsObject: "
         +:+ message (TypeError_read (params (config r)) "repositoryid"))))) ∧
  (nullish (params (config r)) = false → nullish (data r) = true →
   result = Throws (Dms.Rethrown
     (set_message (TypeError_read (data r) "id")
        ("Failed to get dmsObject: "
         +:+ message (TypeError_read (data r) "id"))))).
Proof.
  intros Hs result. subst result. unfold Dms.getDmsObject_default in *.
  rewrite (outcome_getDmsObject_succeeds _ _ _ _ _ Hs).
  destruct (nullish (params (config r))) eqn:Hp.
  - rewrite (transform_nullish_params r Hp), type_error_untyped.
    split; [|split; [reflexivity | discriminate]].
    split; [intros [d Hd]; discriminate | intros [? _]; discriminate].
  - destruct (nullish (data r)) eqn:Hd.
    + rewrite (transform_nullish_data r Hp Hd), type_error_untyped.
      split; [|split; [discriminate | reflexivity]].
      split; [intros [d H]; discriminate | intros [_ ?]; discriminate].
    + destruct (transform_readable r Hp Hd) as (d & -> & _).
      split; [|split; discriminate].
      split; [auto | intros _; exists d; reflexivity].
Qed.

(** X8: a body property that is missing reads as undefined, without
    an error: when [getDmsObject] with the default transform returns a
    DmsObject for a response whose [data] is an object, [id],
    [categories] and [properties] are the values under [id],
    [sourceCategories] and [sourceProperties] where present and
    undefined where absent; when [data] is not an object (a string, a
    number, a boolean, an array) all three are undefined. *)
Theorem getDmsObject_default_missing_keys (net : Network) (r : Response)
    (d : Dms.DmsObject.t) :
  succeeds_with net (Dms.getDmsObject_default context p) r →
  outcome net (Dms.getDmsObject_default context p) = Returns d →
  (∀ m, data r = Object m →
     Dms.DmsObject.id d = default Undefined (m !! "id") ∧
     Dms.DmsObject.categories d
       = default Undefined (m !! "sourceCategories") ∧
     Dms.DmsObject.properties d
       = default Undefined (m !! "sourceProperties")) ∧
  ((∀ m, data r ≠ Object m) →
     Dms.DmsObject.id d = Undefined ∧
     Dms.DmsObject.categories d = Undefined ∧
     Dms.DmsObject.properties d = Undefined).
Proof.
  intros Hs. unfold Dms.getDmsObject_default in *.
  rewrite (outcome_getDmsObject_succeeds _ _ _ _ _ Hs).
  unfold Dms.transformGetDmsObjectResponse.
  destruct (params (config r)); cbn; try discriminate;
    destruct (data r) as [| | | | | |m0]; cbn; try discriminate;
    intros [= <-]; cbn;
    (split; [intros m [= ->] || intros m [=]; auto
            | intros Hno; try (destruct (Hno m0 eq_refl)); auto]).
Qed.

End GetDmsObjectMore.

Lemma getDmsObject_default_returns_iff_witness :
  let r := Samples.respond 200 Null Samples.config_with_params in
  let net := Samples.answering r in
  let body_ := Dms.getDmsObject_default Samples.tenant Samples.ids in
  succeeds_with net body_ r ∧
  nullish (params (config r)) = false ∧
  nullish (data r) = true ∧
  outcome net body_ =
    Throws (Dms.Rethrown
      {| name := "TypeError";
         message := "Failed to get dmsObject: Cannot read properties of null (reading 'id')";
         response := None;
         isAxiosErrorMark := false;
         ownProps := ∅ |}).
Proof.
  intros r net body_.
  assert (Hs : succeeds_with net body_ r) by (intros c _; reflexivity).
  split; [exact Hs|]. split; [reflexivity|]. split; [reflexivity|].
  exact (proj2 (proj2 (getDmsObject_default_returns_iff
                         Samples.tenant Samples.ids net r Hs))
           eq_refl eq_refl).
Defined.

Lemma getDmsObject_default_missing_keys_witness :
  let r := Samples.respond 200 (Str EmptyString) Samples.config_with_params in
  let net := Samples.answering r in
  let body_ := Dms.getDmsObject_default Samples.tenant Samples.ids in
  let d := {| Dms.DmsObject.repositoryId := Str "repo-1";
              Dms.DmsObject.sourceId := Str "/dms/r/repo-1/source";
              Dms.DmsObject.id := Undefined;
              Dms.DmsObject.categories := Undefined;
              Dms.DmsObject.properties := Undefined |} in
  succeeds_with net body_ r ∧
  outcome net body_ = Returns d ∧
  (∀ m, data r ≠ Object m) ∧
  Dms.DmsObject.id d = Undefined.
Proof.
  intros r net body_ d.
  assert (Hs : succeeds_with net body_ r) by (intros c _; reflexivity).
  assert (Hno : ∀ m, data r ≠ Object m) by (intros m; discriminate).
  split; [exact Hs|]. split; [reflexivity|]. split; [exact Hno|].
  exact (proj1 (proj2 (getDmsObject_default_missing_keys
                         Samples.tenant Samples.ids net r d Hs eq_refl)
                  Hno)).
Defined.

Section GetDmsObjectCatch.

Context {T : Type}.
Variables (context : Dms.TenantContext) (p : Dms.GetDmsObjectParams.t).
Variable transform : Response -> Completion ErrorObject T.

(** X9: an error thrown by the transform is handled by the same catch
    clause as a failure of the request: when the request succeeds with
    [r] and the transform throws [e] on [r], [getDmsObject] rejects
    with what it rejects with when the request itself fails with [e].
    So a transform that throws an axios error of status 404 makes the
    call throw [NotFoundError], and any other error thrown by the
    transform comes out with its message prefixed. *)
Theorem getDmsObject_transform_error_as_failure (net net' : Network)
    (r : Response) (e : ErrorObject) :
  succeeds_with net (Dms.getDmsObject context p transform) r →
  transform r = Throws e →
  fails_with net' (Dms.getDmsObject context p transform) e →
  outcome net (Dms.getDmsObject context p transform)
  = outcome net' (Dms.getDmsObject context p transform).
Proof.
  intros Hs Ht Hf.
  rewrite (outcome_getDmsObject_succeeds _ _ _ _ _ Hs), Ht.
  rewrite (outcome_getDmsObject_fails _ _ _ _ _ Hf). reflexivity.
Qed.

(** X10: when the request fails, the transform plays no part and the
    call never resolves: [getDmsObject] rejects, and with the same
    error whatever transform was supplied. *)
Theorem getDmsObject_failure_ignores_transform {T' : Type}
    (transform' : Response -> Completion ErrorObject T')
    (net : Network) (e : ErrorObject) :
  fails_with net (Dms.getDmsObject context p transform) e →
  ∃ x, outcome net (Dms.getDmsObject context p transform) = Throws x ∧
       outcome net (Dms.getDmsObject context p transform') = Throws x.
Proof.
  intros Hf.
  assert (Hf' : fails_with net (Dms.getDmsObject context p transform') e).
  { intros c Hc. apply Hf. rewrite calls_getDmsObject.
    rewrite calls_getDmsObject in Hc. exact Hc. }
  rewrite (outcome_getDmsObject_fails _ _ _ _ _ Hf).
  rewrite (outcome_getDmsObject_fails _ _ _ _ _ Hf').
  eexists. split; reflexivity.
Qed.

(** X11: [getDmsObject] throws a typed error for no other failure than
    the one of its status: when the request fails with [e], a
    [BadRequestError], [UnauthorizedError] or [NotFoundError] holds [e]
    itself, message unchanged, and means that axios recognizes [e] and
    that [e] carries status 400, 401 or 404 respectively; a rethrown
    error means that axios does not recognize [e] or that its status is
    none of the three. *)
Theorem getDmsObject_thrown_inv (net : Network) (e : ErrorObject) :
  fails_with net (Dms.getDmsObject context p transform) e →
  ∃ x, outcome net (Dms.getDmsObject context p transform) = Throws x ∧
       match x with
       | Dms.BadRequestError _ e' =>
           e' = e ∧ axios.isAxiosError e = true ∧ status_of e = Some 400
       | Dms.UnauthorizedError _ e' =>
           e' = e ∧ axios.isAxiosError e = true ∧ status_of e = Some 401
       | Dms.NotFoundError _ e' =>
           e' = e ∧ axios.isAxiosError e = true ∧ status_of e = Some 404
       | Dms.Rethrown _ =>
           axios.isAxiosError e = false ∨
           (status_of e ≠ Some 400 ∧ status_of e ≠ Some 401 ∧
            status_of e ≠ Some 404)
       end.
Proof.
  intros Hf. rewrite (outcome_getDmsObject_fails _ _ _ _ _ Hf).
  rewrite dms_typed_error_eqb.
  destruct (axios.isAxiosError e);
    [|eexists; split; [reflexivity|]; cbn; auto].
  destruct (status_of e) as [s|];
    [|eexists; split; [reflexivity|]; cbn; right; repeat split; discriminate].
  destruct (Z.eqb_spec s 400) as [->|N0];
    [eexists; split; [reflexivity|]; cbn; auto|].
  destruct (Z.eqb_spec s 401) as [->|N1];
    [eexists; split; [reflexivity|]; cbn; auto|].
  destruct (Z.eqb_spec s 404) as [->|N4];
    [eexists; split; [reflexivity|]; cbn; auto|].
  eexists. split; [reflexivity|]. cbn. right. repeat split; congruence.
Qed.

End GetDmsObjectCatch.

Lemma getDmsObject_transform_error_as_failure_witness :
  let e := Samples.status_error true 404 in
  let t := fun _ : Response => Throws (A := Z) e in
  let net := Samples.answering Samples.ok_response in
  let net' := Samples.failing e in
  succeeds_with net (Dms.getDmsObject Samples.tenant Samples.ids t)
    Samples.ok_response ∧
  t Samples.ok_response = Throws e ∧
  fails_with net' (Dms.getDmsObject Samples.tenant Samples.ids t) e ∧
  outcome net (Dms.getDmsObject Samples.tenant Samples.ids t)
  = outcome net' (Dms.getDmsObject Samples.tenant Samples.ids t) ∧
  outcome net (Dms.getDmsObject Samples.tenant Samples.ids t)
  = Throws (Dms.NotFoundError "Failed to get dmsObject" e).
Proof.
  intros e t net net'.
  assert (Hs : succeeds_with net
                 (Dms.getDmsObject Samples.tenant Samples.ids t)
                 Samples.ok_response) by (intros c _; reflexivity).
  assert (Hf : fails_with net'
                 (Dms.getDmsObject Samples.tenant Samples.ids t) e)
    by (intros c _; reflexivity).
  split; [exact Hs|]. split; [reflexivity|]. split; [exact Hf|].
  split; [|reflexivity].
  exact (getDmsObject_transform_error_as_failure Samples.tenant Samples.ids
           t net net' Samples.ok_response e Hs eq_refl Hf).
Defined.

Lemma getDmsObject_failure_ignores_transform_witness :
  let e := Samples.network_error in
  let net := Samples.failing e in
  let t := fun r : Response => Returns (E := ErrorObject) (status r) in
  fails_with net
    (Dms.getDmsObject Samples.tenant Samples.ids
       Dms.transformGetDmsObjectResponse) e ∧
  ∃ x, outcome net (Dms.getDmsObject Samples.tenant Samples.ids
                      Dms.transformGetDmsObjectResponse) = Throws x ∧
       outcome net (Dms.getDmsObject Samples.tenant Samples.ids t) = Throws x.
Proof.
  intros e net t.
  assert (Hf : fails_with net
                 (Dms.getDmsObject Samples.tenant Samples.ids
                    Dms.transformGetDmsObjectResponse) e)
    by (intros c _; reflexivity).
  split; [exact Hf|].
  exact (getDmsObject_failure_ignores_transform Samples.tenant Samples.ids
           Dms.transformGetDmsObjectResponse t net e Hf).
Defined.

Lemma getDmsObject_thrown_inv_witness :
  let e := Samples.status_error true 400 in
  let net := Samples.failing e in
  let body_ := Dms.getDmsObject_default Samples.tenant Samples.ids in
  fails_with net body_ e ∧
  ∃ x, outcome net body_ = Throws x ∧
       match x with
       | Dms.BadRequestError _ e' => e' = e ∧ status_of e = Some 400
       | _ => True
       end.
Proof.
  intros e net body_.
  assert (Hf : fails_with net body_ e) by (intros c _; reflexivity).
  split; [exact Hf|].
  destruct (getDmsObject_thrown_inv Samples.tenant Samples.ids
              Dms.transformGetDmsObjectResponse net e Hf) as (x & Hx & Hm).
  exists x. split; [exact Hx|].
  destruct x; try exact I. exact (conj (proj1 Hm) (proj2 (proj2 Hm))).
Defined.

Section GetDmsObjectFrame.

Variables (context : Dms.TenantContext) (p : Dms.GetDmsObjectParams.t).

(** X12: the result of [getDmsObject] with the default transform
    depends on the response through [data] and [config.params] only:
    the status code, the status text, the response headers and the rest
    of [config] are not looked at, nor are the tenant and the ids of the
    call.  Two calls answered by responses that agree on [data] and
    [config.params] settle alike. *)
Theorem getDmsObject_default_reads_data_and_params
    (context' : Dms.TenantContext) (p' : Dms.GetDmsObjectParams.t)
    (net net' : Network) (r r' : Response) :
  succeeds_with net (Dms.getDmsObject_default context p) r →
  succeeds_with net' (Dms.getDmsObject_default context' p') r' →
  data r = data r' →
  params (config r) = params (config r') →
  outcome net (Dms.getDmsObject_default context p)
  = outcome net' (Dms.getDmsObject_default context' p').
Proof.
  intros Hs Hs' Hd Hp. unfold Dms.getDmsObject_default in *.
  rewrite (outcome_getDmsObject_succeeds _ _ _ _ _ Hs).
  rewrite (outcome_getDmsObject_succeeds _ _ _ _ _ Hs').
  unfold Dms.transformGetDmsObjectResponse. rewrite Hd, Hp. reflexivity.
Qed.

End GetDmsObjectFrame.

Lemma getDmsObject_default_reads_data_and_params_witness :
  let r := Samples.ok_response in
  let r' := {| data := Samples.dms_body;
               status := 500;
               statusText := "Internal Server Error";
               responseHeaders := {[ "content-type" := "text/plain" ]};
               config :=
                 {| baseURL := "https://elsewhere.example";
                    headers := ∅;
                    follows := Some ["repo"];
                    templates := None;
                    params := params Samples.config_with_params |} |} in
  let net := Samples.answering r in
  let net' := Samples.answering r' in
  succeeds_with net (Dms.getDmsObject_default Samples.tenant Samples.ids) r ∧
  succeeds_with net'
    (Dms.getDmsObject_default Samples.tenant Samples.other_ids) r' ∧
  r ≠ r' ∧
  outcome net (Dms.getDmsObject_default Samples.tenant Samples.ids)
  = outcome net' (Dms.getDmsObject_default Samples.tenant Samples.other_ids).
Proof.
  intros r r' net net'.
  assert (Hs : succeeds_with net
                 (Dms.getDmsObject_default Samples.tenant Samples.ids) r)
    by (intros c _; reflexivity).
  assert (Hs' : succeeds_with net'
                  (Dms.getDmsObject_default Samples.tenant Samples.other_ids)
                  r')
    by (intros c _; reflexivity).
  split; [exact Hs|]. split; [exact Hs'|].
  split; [intros H; discriminate (f_equal status H)|].
  exact (getDmsObject_default_reads_data_and_params
           Samples.tenant Samples.ids Samples.tenant Samples.other_ids
           net net' r r' Hs Hs' eq_refl eq_refl).
Defined.
